(** * jupyter-stats: the value extractor and the subplot grid helpers

    A shallow embedding of [src/utils/dataframe_processors.py] and
    [src/utils/visualizers.py], and the properties of the grid arithmetic,
    the axis lookup, the argument passing of [plot_bar] and the value
    extractor. *)

From Stdlib Require Import ZArith QArith Qround Bool List String Lia.
From Stdlib Require Import PrimFloat.
Import ListNotations.

#[local] Set Warnings "-register-all".

Local Open Scope string_scope.
Local Open Scope list_scope.
Local Open Scope Z_scope.

(** ** Python values, classes, exceptions *)

Module Py.

(** The objects the two modules receive: [None], [bool], [int] (unbounded),
    [float] (a binary64), [str], [tuple] and [pandas.Series] (its values,
    in order). *)
Inductive value : Type :=
| VNone
| VBool (b : bool)
| VInt (z : Z)
| VFloat (f : float)
| VStr (s : string)
| VTuple (items : list value)
| VSeries (values : list value).

(** The classes [isinstance] is asked about. *)
Inductive py_type : Type :=
| TObject | TNoneType | TBool | TInt | TFloat | TStr | TTuple | TSeries.

Definition type_of (v : value) : py_type :=
  match v with
  | VNone => TNoneType
  | VBool _ => TBool
  | VInt _ => TInt
  | VFloat _ => TFloat
  | VStr _ => TStr
  | VTuple _ => TTuple
  | VSeries _ => TSeries
  end.

(** [issubclass]: every class derives from [object], and [bool] from
    [int]. *)
Definition issubclass (c t : py_type) : bool :=
  match t, c with
  | TObject, _ => true
  | TInt, (TInt | TBool) => true
  | TNoneType, TNoneType | TBool, TBool | TFloat, TFloat
  | TStr, TStr | TTuple, TTuple | TSeries, TSeries => true
  | _, _ => false
  end.

Definition isinstance (v : value) (t : py_type) : bool :=
  issubclass (type_of v) t.

(** The integer an instance of [int] stands for ([True] is 1 and [False]
    is 0); [None] for the other classes. *)
Definition as_int (v : value) : option Z :=
  match v with
  | VInt z => Some z
  | VBool b => Some (if b then 1 else 0)
  | _ => None
  end.

(** [int(b)] of a comparison's result. *)
Definition int_of_bool (b : bool) : Z := if b then 1 else 0.

(** What an exception says: a literal text, the f-string of
    [get_value_from_dataframe] (its two holes kept apart), or one of the
    interpreter's own messages. *)
Inductive message : Type :=
| Text (s : string)
| ShouldBe (data : value) (data_type : py_type)
| MultipleValues (func param : string)
| TooManyPositional (func : string)
| MissingArgument (func param : string)
| NotSubscriptable
| NoAttribute (attr : string)
| Unbound (name : string)
| TooManyIndices
| OutOfBounds (index : Z) (size : nat)
| DivisionByZero.

Inductive exn : Type :=
| TypeError (m : message)
| ValueError (m : message)
| IndexError (m : message)
| AttributeError (m : message)
| NameError (m : message)
| ZeroDivisionError (m : message).

Inductive result (A : Type) : Type :=
| Ok (a : A)
| Raise (e : exn).
Arguments Ok {A} a.
Arguments Raise {A} e.

Definition bind {A B : Type} (r : result A) (k : A -> result B) : result B :=
  match r with
  | Ok a => k a
  | Raise e => Raise e
  end.

Definition raises {A : Type} (r : result A) : Prop :=
  exists e, r = Raise e.

Definition is_type_error (e : exn) : bool :=
  match e with TypeError _ => true | _ => false end.

Definition is_value_error (e : exn) : bool :=
  match e with ValueError _ => true | _ => false end.

(** [a // b] and [a % b] on [int]: the quotient rounds towards minus
    infinity and the remainder takes the divisor's sign, as [Z.div] and
    [Z.modulo] do; a zero divisor raises. *)
Definition floordiv (a b : Z) : result Z :=
  if b =? 0 then Raise (ZeroDivisionError DivisionByZero) else Ok (a / b).

Definition modulo (a b : Z) : result Z :=
  if b =? 0 then Raise (ZeroDivisionError DivisionByZero) else Ok (a mod b).

(** One integer index along one axis of an array: [-len <= i < len], a
    negative index counting from the end; anything else is out of
    bounds. *)
Definition item {A : Type} (l : list A) (i : Z) : result A :=
  let len := Z.of_nat (List.length l) in
  if (- len <=? i) && (i <? len) then
    match nth_error l (Z.to_nat (if i <? 0 then i + len else i)) with
    | Some a => Ok a
    | None => Raise (IndexError (OutOfBounds i (List.length l)))
    end
  else Raise (IndexError (OutOfBounds i (List.length l))).

(** The [int] an arithmetic operator or a comparison reads off an
    instance of [int]. *)
Definition int_of (v : value) : result Z :=
  match as_int v with
  | Some z => Ok z
  | None => Raise (TypeError (Text "an integer is required"))
  end.

End Py.

Import Py.

Declare Scope py_scope.
Delimit Scope py_scope with py.
Notation "x <- r ;; k" := (bind r (fun x => k))
  (at level 61, r at next level, right associativity) : py_scope.
Notation "' pat <- r ;; k" := (bind r (fun x => match x with pat => k end))
  (at level 61, pat pattern, r at next level, right associativity) : py_scope.
Local Open Scope py_scope.
Declare Scope io_scope.

(** ** src/utils/visualizers.py: BaseVisualizer *)

Module BaseVisualizer.

(** [_calc_nrows_ncols(self, nplots, max_ncols)]. The two [isinstance]
    tests are the reading of both arguments as integers ([as_int] answers
    exactly on the instances of [int]); the arithmetic below the guard is
    then integer arithmetic. [ncols] is the very argument that was chosen,
    [nrows] a fresh [int]. *)
Definition _calc_nrows_ncols (nplots max_ncols : value) : result (value * value) :=
  match as_int nplots, as_int max_ncols with
  | Some n, Some m =>
      if (n <=? 0) || (m <=? 0) then
        Raise (ValueError (Text "nplots and max_ncols must be positive values."))
      else
        let '(ncols, c) := if n <? m then (nplots, n) else (max_ncols, m) in
        q <- floordiv n c ;;
        r <- modulo n c ;;
        Ok (VInt (q + int_of_bool (negb (r =? 0))), ncols)
  | _, _ =>
      Raise (TypeError (Text "nplots and max_ncols must be positive integers."))
  end.

(** What [plt.subplots] hands back as its second component: one
    [Axes] object, a one-dimensional array of them, or a two-dimensional
    one (a list of rows). [H] is whatever tells one [Axes] from another. *)
Inductive axes (H : Type) : Type :=
| Axes (h : H)
| Array1 (items : list H)
| Array2 (rows : list (list H)).
Arguments Axes {H} h.
Arguments Array1 {H} items.
Arguments Array2 {H} rows.

Section Indexing.
Context {H : Type}.

(** [axes[i]]. *)
Definition getitem (a : axes H) (i : Z) : result (axes H) :=
  match a with
  | Axes _ => Raise (TypeError NotSubscriptable)
  | Array1 items => h <- item items i ;; Ok (Axes h)
  | Array2 rows => row <- item rows i ;; Ok (Array1 row)
  end.

(** [axes[i, j]]. *)
Definition getitem2 (a : axes H) (i j : Z) : result (axes H) :=
  match a with
  | Axes _ => Raise (TypeError NotSubscriptable)
  | Array1 _ => Raise (IndexError TooManyIndices)
  | Array2 rows => row <- item rows i ;; h <- item row j ;; Ok (Axes h)
  end.

(** [_get_ax(self, axes, idx, nrows, ncols)]. *)
Definition _get_ax (a : axes H) (idx nrows ncols : Z) : result (axes H) :=
  if (nrows >? 1) && (ncols >? 1) then
    r <- floordiv idx ncols ;;
    c <- modulo idx ncols ;;
    getitem2 a r c
  else if nrows * ncols =? 1 then
    Ok a
  else
    getitem a idx.

End Indexing.

End BaseVisualizer.

(** ** The plotting libraries, as the calls made to them *)

Module Plotting.

Import BaseVisualizer.

(** A [pandas.DataFrame]: its columns, by name. *)
Definition dataframe : Type := list (string * list value).

(** An [Axes] object is told apart by its place (row, column) in the
    figure's grid. *)
Definition ax_id : Type := (Z * Z)%type.

(** What is passed to a call: a plain value, the axes container or one of
    its elements, the dataframe, or the tick labels read off an [Axes]. *)
Inductive arg : Type :=
| AVal (v : value)
| AAxes (a : axes ax_id)
| AData (d : dataframe)
| ATickLabels (of_ax : ax_id).

(** One call into matplotlib or seaborn: the callee, the positional
    arguments and the keyword arguments, in the order written. *)
Record call : Type := Call {
  callee : string;
  positional : list arg;
  keywords : list (string * arg)
}.

(** A computation that calls the libraries: the calls made, oldest first,
    and what it returned or raised. The calls made before a [raise]
    stay made. *)
Definition io (A : Type) : Type := (list call * result A)%type.

Definition ret {A : Type} (a : A) : io A := ([], Ok a).

Definition throw {A : Type} (e : exn) : io A := ([], Raise e).

Definition lift {A : Type} (r : result A) : io A := ([], r).

Definition emit (c : call) : io unit := ([c], Ok tt).

Definition iobind {A B : Type} (m : io A) (k : A -> io B) : io B :=
  match m with
  | (t, Ok a) => let '(t', r) := k a in (t ++ t', r)
  | (t, Raise e) => (t, Raise e)
  end.

(** [for x in xs: body(x)]. *)
Fixpoint for_each {A : Type} (xs : list A) (body : A -> io unit) : io unit :=
  match xs with
  | [] => ret tt
  | x :: xs' => iobind (body x) (fun _ => for_each xs' body)
  end.

(** [enumerate(xs)], counting from [i]. *)
Fixpoint enumerate_from {A : Type} (i : Z) (xs : list A) : list (Z * A) :=
  match xs with
  | [] => []
  | x :: xs' => (i, x) :: enumerate_from (i + 1) xs'
  end.

Definition enumerate {A : Type} (xs : list A) : list (Z * A) :=
  enumerate_from 0 xs.

Definition called (name : string) (c : call) : bool :=
  String.eqb (callee c) name.

(** *** Binding the arguments of a call to a [def]

    For a function [def f(p1, ..., pn, **kwargs)] whose parameters may
    have defaults: the positional arguments fill the parameters from the
    left; a keyword argument fills the parameter of its name, or lands
    in [kwargs] when no parameter has that name; a parameter filled twice,
    a positional argument too many and a parameter left without value
    and without default all raise [TypeError]. *)
Definition lookup {V : Type} (env : list (string * V)) (name : string) : option V :=
  option_map snd (find (fun kv => String.eqb (fst kv) name) env).

Section Binding.
Context {A : Type}.

Fixpoint bind_positional (func : string) (params : list (string * option A))
    (pos : list A) : result (list (string * A)) :=
  match pos, params with
  | [], _ => Ok []
  | _ :: _, [] => Raise (TypeError (TooManyPositional func))
  | a :: pos', (p, _) :: params' =>
      env <- bind_positional func params' pos' ;; Ok ((p, a) :: env)
  end.

Fixpoint bind_keywords (func : string) (params : list (string * option A))
    (env kwargs : list (string * A)) (kw : list (string * A))
    : result (list (string * A) * list (string * A)) :=
  match kw with
  | [] => Ok (env, kwargs)
  | (k, v) :: kw' =>
      match lookup params k with
      | Some _ =>
          match lookup env k with
          | Some _ => Raise (TypeError (MultipleValues func k))
          | None => bind_keywords func params (env ++ [(k, v)]) kwargs kw'
          end
      | None => bind_keywords func params env (kwargs ++ [(k, v)]) kw'
      end
  end.

Fixpoint bind_defaults (func : string) (params : list (string * option A))
    (env : list (string * A)) : result (list (string * A)) :=
  match params with
  | [] => Ok env
  | (p, d) :: params' =>
      match lookup env p, d with
      | Some _, _ => bind_defaults func params' env
      | None, Some a => bind_defaults func params' (env ++ [(p, a)])
      | None, None => Raise (TypeError (MissingArgument func p))
      end
  end.

Definition bind_call (func : string) (params : list (string * option A))
    (pos : list A) (kw : list (string * A))
    : result (list (string * A) * list (string * A)) :=
  env <- bind_positional func params pos ;;
  '(env, kwargs) <- bind_keywords func params env [] kw ;;
  env <- bind_defaults func params env ;;
  Ok (env, kwargs).

(** Reading a local variable of the callee. *)
Definition var (env : list (string * A)) (name : string) : result A :=
  match lookup env name with
  | Some a => Ok a
  | None => Raise (NameError (Unbound name))
  end.

(** [g(k1=v1, ..., **kwargs)]: a key of [kwargs] that repeats one of
    the keywords written out raises [TypeError]. *)
Definition with_kwargs (func : string) (explicit kwargs : list (string * A))
    : result (list (string * A)) :=
  match find (fun kv => match lookup explicit (fst kv) with
                        | Some _ => true | None => false end) kwargs with
  | Some (k, _) => Raise (TypeError (MultipleValues func k))
  | None => Ok (explicit ++ kwargs)
  end.

End Binding.

(** *** [plt.subplots(nrows, ncols, ...)]

    matplotlib's side of the contract, with its default [squeeze=True]:
    a figure of [nrows * ncols] fresh [Axes], handed back as the single
    object for a 1 x 1 grid, as a one-dimensional array when exactly one
    of the two is 1, and as a two-dimensional array (rows of columns)
    otherwise. Non-positive sizes raise [ValueError]. *)
Definition zrange (n : Z) : list Z := map Z.of_nat (seq 0 (Z.to_nat n)).

Definition grid_rows (nrows ncols : Z) : list (list ax_id) :=
  map (fun r => map (fun c => (r, c)) (zrange ncols)) (zrange nrows).

Definition subplots (nrows ncols : Z) : result (axes ax_id) :=
  if nrows <=? 0 then
    Raise (ValueError (Text "Number of rows must be a positive integer"))
  else if ncols <=? 0 then
    Raise (ValueError (Text "Number of columns must be a positive integer"))
  else if (nrows =? 1) && (ncols =? 1) then
    Ok (Axes (0, 0))
  else if (nrows =? 1) || (ncols =? 1) then
    Ok (Array1 (List.concat (grid_rows nrows ncols)))
  else
    Ok (Array2 (grid_rows nrows ncols)).

(** A method of [Axes] called on [a]: an array has no such attribute. *)
Definition ax_method (a : axes ax_id) (name : string)
    (pos : ax_id -> list arg) (kw : list (string * arg)) : io unit :=
  match a with
  | Axes h => emit (Call (String.append "Axes." name) (AAxes a :: pos h) kw)
  | _ => throw (AttributeError (NoAttribute name))
  end.

End Plotting.

(** ** src/utils/visualizers.py: DataFrameVisualizer *)

Module DataFrameVisualizer.

Import BaseVisualizer Plotting.

Notation "x <- m ;; k" := (iobind m (fun x => k))
  (at level 61, m at next level, right associativity) : io_scope.
Notation "' pat <- m ;; k" := (iobind m (fun x => match x with pat => k end))
  (at level 61, pat pattern, m at next level, right associativity) : io_scope.
Notation "m ;; k" := (iobind m (fun _ => k))
  (at level 61, right associativity) : io_scope.
Local Open Scope io_scope.

Record self : Type := Self {
  _dataframe : dataframe;
  _row_size : Z;
  _col_size : Z
}.

(** The figure [plt.subplots] made. *)
Inductive figure : Type := Figure (nrows ncols : Z).

(** [_get_subplots(self, nrows, ncols)]. *)
Definition _get_subplots (s : self) (nrows ncols : Z) : io (figure * axes ax_id) :=
  emit (Call "plt.subplots" [AVal (VInt nrows); AVal (VInt ncols)]
          [("figsize", AVal (VTuple [VInt (_col_size s * ncols);
                                     VInt (_row_size s * nrows)]));
           ("tight_layout", AVal (VBool true))]) ;;
  a <- lift (subplots nrows ncols) ;;
  ret (Figure nrows ncols, a).

(** [def _plot_dots(self, x_col, y_col, plot_size, ax, hue_col=None, **kwargs)] *)
Definition _plot_dots_params : list (string * option arg) :=
  [("x_col", None); ("y_col", None); ("plot_size", None); ("ax", None);
   ("hue_col", Some (AVal VNone))].

Definition _plot_dots (s : self) (pos : list arg) (kw : list (string * arg)) : io unit :=
  '(env, kwargs) <- lift (bind_call "_plot_dots" _plot_dots_params pos kw) ;;
  x_col <- lift (var env "x_col") ;;
  y_col <- lift (var env "y_col") ;;
  hue_col <- lift (var env "hue_col") ;;
  plot_size <- lift (var env "plot_size") ;;
  ax <- lift (var env "ax") ;;
  keywords <- lift (with_kwargs "stripplot"
                      [("data", AData (_dataframe s)); ("x", x_col); ("y", y_col);
                       ("hue", hue_col); ("size", plot_size); ("ax", ax)] kwargs) ;;
  emit (Call "sns.stripplot" [] keywords).

(** [plot_bar(self, x_col, y_cols, hue_col, max_ncols, xlabel, ylabel,
    plot_dots, plot_size, long_xticklabels, **kwargs)], every argument
    given. *)
Definition plot_bar (s : self) (x_col : string) (y_cols : list string)
    (hue_col max_ncols : value) (xlabel ylabel : string)
    (plot_dots : bool) (plot_size : value) (long_xticklabels : bool)
    (kwargs : list (string * arg)) : io figure :=
  '(nrows, ncols) <- lift (_calc_nrows_ncols (VInt (Z.of_nat (List.length y_cols))) max_ncols) ;;
  nrows <- lift (int_of nrows) ;;
  ncols <- lift (int_of ncols) ;;
  '(fig, axes) <- _get_subplots s nrows ncols ;;
  for_each (enumerate y_cols) (fun '(i, y_col) =>
    ax_i <- lift (_get_ax axes i nrows ncols) ;;
    keywords <- lift (with_kwargs "barplot"
                        [("data", AData (_dataframe s)); ("x", AVal (VStr x_col));
                         ("y", AVal (VStr y_col)); ("hue", AVal hue_col);
                         ("ax", AAxes ax_i)] kwargs) ;;
    emit (Call "sns.barplot" [] keywords) ;;
    (if plot_dots then
       _plot_dots s [AVal (VStr x_col); AVal (VStr y_col); AVal hue_col; AVal plot_size]
                    [("ax", AAxes ax_i)]
     else ret tt) ;;
    ax_method ax_i "set" (fun _ => [])
      [("xlabel", AVal (VStr xlabel)); ("ylabel", AVal (VStr ylabel));
       ("title", AVal (VStr y_col))] ;;
    (if long_xticklabels then
       ax_method ax_i "get_xticklabels" (fun _ => []) [] ;;
       ax_method ax_i "set_xticklabels" (fun h => [ATickLabels h])
         [("rotation", AVal (VInt 45)); ("ha", AVal (VStr "right"))]
     else ret tt)) ;;
  ret fig.

End DataFrameVisualizer.

(** ** src/utils/dataframe_processors.py *)

Module DataframeProcessors.

(** [np.nan] *)
Definition np_nan : value := VFloat nan.

(** [data.empty] and [data.values] of a [pd.Series]. *)
Definition empty (data : value) : bool :=
  match data with
  | VSeries [] => true
  | _ => false
  end.

Definition values (data : value) : list value :=
  match data with
  | VSeries vs => vs
  | _ => []
  end.

(** [get_value_from_dataframe(data, data_type, empty_value=np.nan)]:
    [empty_value] is [None] when the caller leaves it out. *)
Definition get_value_from_dataframe (data : value) (data_type : py_type)
    (empty_value : option value) : result value :=
  let empty_value := match empty_value with Some v => v | None => np_nan end in
  if isinstance data TSeries then
    if empty data then Ok empty_value
    else item (values data) 0
  else if isinstance data data_type then
    Ok data
  else
    Raise (TypeError (ShouldBe data data_type)).

End DataframeProcessors.

(** ** The vocabulary of the specification *)

Import BaseVisualizer Plotting DataFrameVisualizer DataframeProcessors.

(** A positive instance of [int]. *)
Definition positive_int (v : value) : bool :=
  match as_int v with
  | Some z => 0 <? z
  | None => false
  end.

(** [InvalidArgument] is the spec's name for the two exceptions the guard
    raises. *)
Definition invalid_argument (e : exn) : bool :=
  is_type_error e || is_value_error e.

(** What the spec calls [ceil(n / c)], over the rationals. *)
Definition ceil_div (n c : Z) : Z := Qceiling (inject_Z n / inject_Z c).

(** The row count as the source computes it. *)
Definition rows_of (n c : Z) : Z := n / c + int_of_bool (negb (n mod c =? 0)).






(** * Properties *)

(** ** Integers and their classes *)

(** [isinstance(v, int)] holds exactly of the values [as_int] reads. *)
Lemma isinstance_int_as_int (v : value) :
  isinstance v TInt = true <-> exists z, as_int v = Some z.
Proof.
  destruct v; cbn; split; intros Hv; try discriminate; eauto;
    destruct Hv as [z Hz]; discriminate.
Qed.

Lemma positive_int_spec (v : value) :
  positive_int v = true <-> exists z, as_int v = Some z /\ 0 < z.
Proof.
  unfold positive_int. destruct (as_int v) as [z|].
  - rewrite Z.ltb_lt. split; [eauto | intros (z' & Hz & Hpos); congruence].
  - split; [discriminate | intros (z' & Hz & _); discriminate].
Qed.

(** ** The grid arithmetic *)

Section GridArithmetic.

Variables n c : Z.
Hypothesis c_pos : 0 < c.

Lemma rows_of_cases :
  (n mod c = 0 /\ rows_of n c = n / c) \/
  (n mod c <> 0 /\ rows_of n c = n / c + 1).
Proof.
  unfold rows_of. destruct (Z.eqb_spec (n mod c) 0) as [E|E]; cbn; [left|right]; lia.
Qed.

Lemma rows_of_covers : n <= rows_of n c * c.
Proof.
  pose proof (Z.div_mod n c ltac:(lia)) as Hdm.
  pose proof (Z.mod_pos_bound n c c_pos) as Hb.
  destruct rows_of_cases as [[Hm ->]|[Hm ->]]; nia.
Qed.

Lemma rows_of_tight : (rows_of n c - 1) * c < n.
Proof.
  pose proof (Z.div_mod n c ltac:(lia)) as Hdm.
  pose proof (Z.mod_pos_bound n c c_pos) as Hb.
  destruct rows_of_cases as [[Hm ->]|[Hm ->]]; nia.
Qed.

(** The ceiling of a quotient is the one integer [r] with
    [(r - 1) * c < n <= r * c]. *)
Lemma ceil_div_unique (r : Z) : (r - 1) * c < n <= r * c -> ceil_div n c = r.
Proof.
  intros Hr. unfold ceil_div, Qceiling.
  assert (Hq : (- (inject_Z n / inject_Z c) == inject_Z (- n) / inject_Z c)%Q).
  { rewrite inject_Z_opp. field. intros Hc. inversion Hc. lia. }
  rewrite Hq, <- Zdiv_Qdiv.
  assert (Hd : - n / c = - r).
  { symmetry. apply (Z.div_unique_pos (- n) c (- r) (r * c - n)); lia. }
  lia.
Qed.

Lemma rows_of_ceil : rows_of n c = ceil_div n c.
Proof.
  symmetry. apply ceil_div_unique. split.
  - apply rows_of_tight.
  - apply rows_of_covers.
Qed.

End GridArithmetic.

(** On two positive instances of [int], [_calc_nrows_ncols] returns, and
    returns the argument it chose together with the row count. *)
Lemma calc_nrows_ncols_ok (v1 v2 : value) (n m : Z) :
  as_int v1 = Some n -> as_int v2 = Some m -> 0 < n -> 0 < m ->
  _calc_nrows_ncols v1 v2 =
    Ok (VInt (rows_of n (Z.min n m)), if n <? m then v1 else v2).
Proof.
  intros H1 H2 Hn Hm. unfold _calc_nrows_ncols. rewrite H1, H2.
  destruct (Z.leb_spec n 0); [lia|]. destruct (Z.leb_spec m 0); [lia|]. cbn [orb].
  destruct (Z.ltb_spec n m) as [Hlt|Hge].
  - rewrite Z.min_l by lia. unfold floordiv, modulo.
    destruct (Z.eqb_spec n 0); [lia|]. reflexivity.
  - rewrite Z.min_r by lia. unfold floordiv, modulo.
    destruct (Z.eqb_spec m 0); [lia|]. reflexivity.
Qed.

Lemma calc_nrows_ncols_int (n m : Z) :
  0 < n -> 0 < m ->
  _calc_nrows_ncols (VInt n) (VInt m) =
    Ok (VInt (rows_of n (Z.min n m)), VInt (Z.min n m)).
Proof.
  intros Hn Hm. rewrite (calc_nrows_ncols_ok (VInt n) (VInt m) n m) by (reflexivity || lia).
  destruct (Z.ltb_spec n m); [rewrite Z.min_l | rewrite Z.min_r]; (reflexivity || lia).
Qed.

(** The guard of [_calc_nrows_ncols], case by case: which exception, or a
    result. *)
Lemma calc_nrows_ncols_guard (v1 v2 : value) :
  match as_int v1, as_int v2 with
  | Some n, Some m =>
      if (n <=? 0) || (m <=? 0) then
        _calc_nrows_ncols v1 v2 =
          Raise (ValueError (Text "nplots and max_ncols must be positive values."))
      else exists r, _calc_nrows_ncols v1 v2 = Ok r
  | _, _ =>
      _calc_nrows_ncols v1 v2 =
        Raise (TypeError (Text "nplots and max_ncols must be positive integers."))
  end.
Proof.
  destruct (as_int v1) as [n|] eqn:H1, (as_int v2) as [m|] eqn:H2;
    try (unfold _calc_nrows_ncols; rewrite H1, ?H2; reflexivity).
  destruct ((n <=? 0) || (m <=? 0)) eqn:Hg.
  - unfold _calc_nrows_ncols. rewrite H1, H2, Hg. reflexivity.
  - apply orb_false_elim in Hg as [Hn Hm].
    apply Z.leb_gt in Hn. apply Z.leb_gt in Hm.
    rewrite (calc_nrows_ncols_ok v1 v2 n m H1 H2 Hn Hm). eauto.
Qed.

(** C1. For positive integers [n] and [m], [_calc_nrows_ncols] returns
    [min n m] columns and [ceil (n / columns)] rows, that is
    [floor (n / columns)], plus one exactly when [columns] does not
    divide [n]. *)
Theorem plan_columns_min_rows_ceil (n m : Z) :
  0 < n -> 0 < m ->
  exists rows cols,
    _calc_nrows_ncols (VInt n) (VInt m) = Ok (VInt rows, VInt cols) /\
    cols = Z.min n m /\
    rows = ceil_div n cols /\
    (((cols | n) /\ rows = n / cols) \/ (~ (cols | n) /\ rows = n / cols + 1)).
Proof.
  intros Hn Hm. exists (rows_of n (Z.min n m)), (Z.min n m).
  assert (Hc : 0 < Z.min n m) by lia.
  split; [apply calc_nrows_ncols_int; assumption|].
  split; [reflexivity|].
  split; [apply rows_of_ceil; assumption|].
  destruct (rows_of_cases n (Z.min n m)) as [[Hd Hr]|[Hd Hr]].
  - left. split; [apply Z.mod_divide; lia | exact Hr].
  - right. split; [rewrite <- Z.mod_divide by lia; exact Hd | exact Hr].
Qed.

Lemma plan_columns_min_rows_ceil_witness :
  exists rows cols,
    _calc_nrows_ncols (VInt 7) (VInt 3) = Ok (VInt rows, VInt cols) /\
    cols = Z.min 7 3 /\
    rows = ceil_div 7 cols /\
    (((cols | 7) /\ rows = 7 / cols) \/ (~ (cols | 7) /\ rows = 7 / cols + 1)).
Proof. apply (plan_columns_min_rows_ceil 7 3); lia. Defined.

(** C5. For positive integers [n] and [m] the grid has at least [n]
    cells. *)
Theorem plan_enough_cells (n m : Z) :
  0 < n -> 0 < m ->
  exists rows cols,
    _calc_nrows_ncols (VInt n) (VInt m) = Ok (VInt rows, VInt cols) /\
    rows * cols >= n.
Proof.
  intros Hn Hm. exists (rows_of n (Z.min n m)), (Z.min n m).
  split; [apply calc_nrows_ncols_int; assumption|].
  apply Z.le_ge, rows_of_covers. lia.
Qed.

Lemma plan_enough_cells_witness :
  exists rows cols,
    _calc_nrows_ncols (VInt 7) (VInt 3) = Ok (VInt rows, VInt cols) /\
    rows * cols >= 7.
Proof. apply (plan_enough_cells 7 3); lia. Defined.

(** C8. For positive integers [n] and [m] the grid without its last row is
    too small: [(rows - 1) * columns < n], so the last row holds at least
    one item. *)
Theorem plan_no_empty_row (n m : Z) :
  0 < n -> 0 < m ->
  exists rows cols,
    _calc_nrows_ncols (VInt n) (VInt m) = Ok (VInt rows, VInt cols) /\
    (rows - 1) * cols < n /\
    1 <= n - (rows - 1) * cols <= cols.
Proof.
  intros Hn Hm. exists (rows_of n (Z.min n m)), (Z.min n m).
  split; [apply calc_nrows_ncols_int; assumption|].
  pose proof (rows_of_tight n (Z.min n m) ltac:(lia)).
  pose proof (rows_of_covers n (Z.min n m) ltac:(lia)).
  lia.
Qed.

Lemma plan_no_empty_row_witness :
  exists rows cols,
    _calc_nrows_ncols (VInt 7) (VInt 3) = Ok (VInt rows, VInt cols) /\
    (rows - 1) * cols < 7 /\
    1 <= 7 - (rows - 1) * cols <= cols.
Proof. apply (plan_no_empty_row 7 3); lia. Defined.

(** C7. [_calc_nrows_ncols] raises exactly when one of its arguments is
    not a positive instance of [int] ([bool] derives from [int], so [True]
    is the integer 1 and [False] the integer 0); what it raises is then a
    [TypeError] or a [ValueError]; [(0, 5)] and [(5, 0)] raise, and two
    positive integers never do. *)
Theorem plan_raises_iff_invalid :
  (forall v1 v2 : value,
     (raises (_calc_nrows_ncols v1 v2) <->
      positive_int v1 && positive_int v2 = false) /\
     (forall e, _calc_nrows_ncols v1 v2 = Raise e -> invalid_argument e = true)) /\
  raises (_calc_nrows_ncols (VInt 0) (VInt 5)) /\
  raises (_calc_nrows_ncols (VInt 5) (VInt 0)) /\
  (forall n m, 0 < n -> 0 < m -> exists r, _calc_nrows_ncols (VInt n) (VInt m) = Ok r).
Proof.
  split; [|split; [|split]].
  - intros v1 v2. pose proof (calc_nrows_ncols_guard v1 v2) as Hg.
    unfold positive_int, raises.
    destruct (as_int v1) as [n|], (as_int v2) as [m|]; cbn [andb];
      try (rewrite Hg; split;
           [ split; [intros _; rewrite ?andb_false_r; reflexivity | eauto]
           | intros e [= <-]; reflexivity ]).
    destruct (Z.leb_spec n 0) as [Hn|Hn], (Z.leb_spec m 0) as [Hm|Hm];
      cbn [orb] in Hg;
      try (rewrite Hg; split;
           [ split; [intros _; apply andb_false_iff; rewrite !Z.ltb_ge; lia | eauto]
           | intros e [= <-]; reflexivity ]).
    destruct Hg as [r Hr]. rewrite Hr. split.
    + split; [intros [e He]; discriminate|].
      intros Hf. apply andb_false_iff in Hf. rewrite !Z.ltb_ge in Hf. lia.
    + intros e He. discriminate.
  - eexists. reflexivity.
  - eexists. reflexivity.
  - intros n m Hn Hm. rewrite calc_nrows_ncols_int by assumption. eauto.
Qed.

Lemma plan_raises_iff_invalid_witness :
  raises (_calc_nrows_ncols (VInt 0) (VInt 5)) /\
  raises (_calc_nrows_ncols (VFloat 2.5%float) (VInt 5)) /\
  raises (_calc_nrows_ncols (VInt 5) (VStr "3")) /\
  ~ raises (_calc_nrows_ncols (VInt 5) (VInt 3)).
Proof.
  pose proof (proj1 plan_raises_iff_invalid) as Hiff.
  split; [|split; [|split]].
  - apply (proj1 (Hiff _ _)). reflexivity.
  - apply (proj1 (Hiff _ _)). reflexivity.
  - apply (proj1 (Hiff _ _)). reflexivity.
  - intros Hr. apply (proj1 (Hiff _ _)) in Hr. discriminate Hr.
Defined.

(** C9. The class check comes first: whenever an argument is not an
    instance of [int] the exception is the [TypeError], whatever the other
    argument is; on two instances of [int] of which one is not positive it
    is the [ValueError]. *)
Theorem plan_type_error_before_value_error (v1 v2 : value) :
  (isinstance v1 TInt = false \/ isinstance v2 TInt = false ->
   _calc_nrows_ncols v1 v2 =
     Raise (TypeError (Text "nplots and max_ncols must be positive integers."))) /\
  (forall n m, as_int v1 = Some n -> as_int v2 = Some m -> n <= 0 \/ m <= 0 ->
   _calc_nrows_ncols v1 v2 =
     Raise (ValueError (Text "nplots and max_ncols must be positive values."))).
Proof.
  pose proof (calc_nrows_ncols_guard v1 v2) as Hg. split.
  - intros Hi.
    destruct (as_int v1) as [n|] eqn:H1, (as_int v2) as [m|] eqn:H2; try exact Hg.
    exfalso. destruct Hi as [Hi|Hi].
    + assert (Ht : isinstance v1 TInt = true) by (apply isinstance_int_as_int; eauto).
      congruence.
    + assert (Ht : isinstance v2 TInt = true) by (apply isinstance_int_as_int; eauto).
      congruence.
  - intros n m H1 H2 Hnm. rewrite H1, H2 in Hg.
    replace ((n <=? 0) || (m <=? 0)) with true in Hg; [exact Hg|].
    symmetry. apply orb_true_iff. rewrite !Z.leb_le. exact Hnm.
Qed.

Lemma plan_type_error_before_value_error_witness :
  _calc_nrows_ncols (VFloat 2.5%float) (VInt 0) =
    Raise (TypeError (Text "nplots and max_ncols must be positive integers.")) /\
  _calc_nrows_ncols (VInt 3) (VFloat 2.5%float) =
    Raise (TypeError (Text "nplots and max_ncols must be positive integers.")) /\
  _calc_nrows_ncols (VInt 0) (VInt 5) =
    Raise (ValueError (Text "nplots and max_ncols must be positive values.")) /\
  _calc_nrows_ncols (VBool true) (VInt (-2)) =
    Raise (ValueError (Text "nplots and max_ncols must be positive values.")).
Proof.
  split; [|split; [|split]].
  - apply (proj1 (plan_type_error_before_value_error _ _)). left. reflexivity.
  - apply (proj1 (plan_type_error_before_value_error _ _)). right. reflexivity.
  - apply (proj2 (plan_type_error_before_value_error _ _) 0 5); [reflexivity| reflexivity | lia].
  - apply (proj2 (plan_type_error_before_value_error _ _) 1 (-2)); [reflexivity| reflexivity | lia].
Defined.

(** ** The axis lookup *)

Section ItemFacts.

Context {A : Type}.

(** A non-negative index below the length reads the element at that
    place. *)
Lemma item_nth_error (l : list A) (i : Z) (a : A) :
  0 <= i -> nth_error l (Z.to_nat i) = Some a -> item l i = Ok a.
Proof.
  intros Hi Hn. unfold item.
  assert (Hlen : (Z.to_nat i < List.length l)%nat)
    by (apply nth_error_Some; congruence).
  destruct (Z.leb_spec (- Z.of_nat (List.length l)) i); [|lia].
  destruct (Z.ltb_spec i (Z.of_nat (List.length l))); [|lia].
  destruct (Z.ltb_spec i 0); [lia|].
  cbn [andb]. rewrite Hn. reflexivity.
Qed.

(** An index at or beyond the length raises [IndexError]. *)
Lemma item_out_of_bounds (l : list A) (i : Z) :
  Z.of_nat (List.length l) <= i ->
  item l i = Raise (IndexError (OutOfBounds i (List.length l))).
Proof.
  intros Hi. unfold item.
  destruct (Z.ltb_spec i (Z.of_nat (List.length l))); [lia|].
  rewrite andb_false_r. reflexivity.
Qed.

End ItemFacts.

Section GetAxFacts.

Context {H : Type}.

Lemma get_ax_2d (a : axes H) (idx nrows ncols : Z) :
  1 < nrows -> 1 < ncols ->
  _get_ax a idx nrows ncols = getitem2 a (idx / ncols) (idx mod ncols).
Proof.
  intros Hr Hc. unfold _get_ax, floordiv, modulo.
  destruct (Z.gtb_spec nrows 1); [|lia]. destruct (Z.gtb_spec ncols 1); [|lia].
  destruct (Z.eqb_spec ncols 0); [lia|]. reflexivity.
Qed.

Lemma get_ax_single (a : axes H) (idx nrows ncols : Z) :
  nrows * ncols = 1 -> _get_ax a idx nrows ncols = Ok a.
Proof.
  intros Hp. unfold _get_ax.
  assert (Hnot : (nrows >? 1) && (ncols >? 1) = false).
  { destruct (Z.gtb_spec nrows 1), (Z.gtb_spec ncols 1); try reflexivity. nia. }
  rewrite Hnot. destruct (Z.eqb_spec (nrows * ncols) 1); [reflexivity | contradiction].
Qed.

Lemma get_ax_1d (a : axes H) (idx nrows ncols : Z) :
  ~ (1 < nrows /\ 1 < ncols) -> nrows * ncols <> 1 ->
  _get_ax a idx nrows ncols = getitem a idx.
Proof.
  intros Hnot Hp. unfold _get_ax.
  assert (Hb : (nrows >? 1) && (ncols >? 1) = false).
  { destruct (Z.gtb_spec nrows 1), (Z.gtb_spec ncols 1); try reflexivity. lia. }
  rewrite Hb. destruct (Z.eqb_spec (nrows * ncols) 1); [contradiction | reflexivity].
Qed.

(** On a grid of positive size the last branch is the one where exactly
    one of the two sizes is 1. *)
Lemma one_dimensional_shape (nrows ncols : Z) :
  0 < nrows -> 0 < ncols ->
  ~ (1 < nrows /\ 1 < ncols) -> nrows * ncols <> 1 ->
  (nrows = 1 /\ 1 < ncols) \/ (ncols = 1 /\ 1 < nrows).
Proof. intros Hr Hc Hnot Hp. nia. Qed.

(** C2. The three-way dispatch of [_get_ax]: with more than one row and
    more than one column, the element at
    [(idx // ncols, idx % ncols)] of the two-dimensional array; with
    [nrows * ncols = 1], the object itself, whatever [idx] is; otherwise
    (on positive sizes: exactly one of the two is 1) the element at [idx]
    of the one-dimensional array. *)
Theorem get_ax_dispatch (a : axes H) (idx nrows ncols : Z) :
  (1 < nrows -> 1 < ncols ->
     _get_ax a idx nrows ncols = getitem2 a (idx / ncols) (idx mod ncols) /\
     (forall rows row h,
        a = Array2 rows -> 0 <= idx ->
        nth_error rows (Z.to_nat (idx / ncols)) = Some row ->
        nth_error row (Z.to_nat (idx mod ncols)) = Some h ->
        _get_ax a idx nrows ncols = Ok (Axes h))) /\
  (nrows * ncols = 1 -> _get_ax a idx nrows ncols = Ok a) /\
  (~ (1 < nrows /\ 1 < ncols) -> nrows * ncols <> 1 ->
     _get_ax a idx nrows ncols = getitem a idx /\
     (0 < nrows -> 0 < ncols ->
        (nrows = 1 /\ 1 < ncols) \/ (ncols = 1 /\ 1 < nrows)) /\
     (forall items h,
        a = Array1 items -> 0 <= idx ->
        nth_error items (Z.to_nat idx) = Some h ->
        _get_ax a idx nrows ncols = Ok (Axes h))).
Proof.
  split; [|split].
  - intros Hr Hc. split; [apply get_ax_2d; assumption|].
    intros rows row h -> Hidx Hrow Hh. rewrite get_ax_2d by assumption.
    cbn [getitem2].
    rewrite (item_nth_error rows (idx / ncols) row) by (try assumption; apply Z.div_pos; lia).
    cbn [bind].
    rewrite (item_nth_error row (idx mod ncols) h)
      by (try assumption; apply Z.mod_pos_bound; lia).
    reflexivity.
  - apply get_ax_single.
  - intros Hnot Hp. split; [apply get_ax_1d; assumption|]. split.
    + intros Hr Hc. apply one_dimensional_shape; assumption.
    + intros items h -> Hidx Hh. rewrite get_ax_1d by assumption.
      cbn [getitem]. rewrite (item_nth_error items idx h) by assumption.
      reflexivity.
Qed.

End GetAxFacts.

Lemma get_ax_dispatch_witness :
  _get_ax (Array2 [[10; 11; 12]; [13; 14; 15]]) 4 2 3 = Ok (Axes 14) /\
  _get_ax (Axes 10) 7 1 1 = Ok (Axes 10) /\
  _get_ax (Array1 [10; 11; 12]) 2 3 1 = Ok (Axes 12).
Proof.
  split; [|split].
  - apply (proj2 (proj1 (get_ax_dispatch (Array2 [[10; 11; 12]; [13; 14; 15]]) 4 2 3)
                   ltac:(lia) ltac:(lia))
             [[10; 11; 12]; [13; 14; 15]] [13; 14; 15] 14);
      [reflexivity | lia | reflexivity | reflexivity].
  - apply (proj1 (proj2 (get_ax_dispatch (Axes 10) 7 1 1))). reflexivity.
  - apply (proj2 (proj2 (proj2 (proj2 (get_ax_dispatch (Array1 [10; 11; 12]) 2 3 1))
                          ltac:(lia) ltac:(lia)))
             [10; 11; 12] 12);
      [reflexivity | lia | reflexivity].
Defined.

(** ** The lookup on the container [plt.subplots] returns *)

Lemma nth_error_zrange (n i : Z) :
  0 <= i < n -> nth_error (zrange n) (Z.to_nat i) = Some i.
Proof.
  intros Hi. unfold zrange.
  rewrite nth_error_map.
  rewrite (nth_error_nth' _ 0%nat) by (rewrite length_seq; lia).
  rewrite seq_nth by lia. cbn. f_equal. lia.
Qed.

Lemma nth_error_grid_rows (nrows ncols r : Z) :
  0 <= r < nrows ->
  nth_error (grid_rows nrows ncols) (Z.to_nat r) =
    Some (map (fun c => (r, c)) (zrange ncols)).
Proof.
  intros Hr. unfold grid_rows.
  rewrite nth_error_map, nth_error_zrange by assumption. reflexivity.
Qed.

Lemma nth_error_grid_cell (nrows ncols r c : Z) :
  0 <= c < ncols ->
  nth_error (map (fun c => (r, c)) (zrange ncols)) (Z.to_nat c) = Some (r, c).
Proof.
  intros Hc. rewrite nth_error_map, nth_error_zrange by assumption. reflexivity.
Qed.

Lemma concat_singletons {A B : Type} (f : A -> B) (l : list A) :
  List.concat (map (fun x => [f x]) l) = map f l.
Proof. induction l as [|x l IH]; cbn; [reflexivity | rewrite IH; reflexivity]. Qed.

Lemma zrange_1 : zrange 1 = [0].
Proof. reflexivity. Qed.

(** In a grid of [nrows] by [ncols] cells that holds item [idx], the
    lookup of [_get_ax] on what [plt.subplots] returned finds the [Axes]
    at row [idx / ncols], column [idx mod ncols]. *)
Lemma get_ax_subplots (nrows ncols idx : Z) :
  0 < nrows -> 0 < ncols -> 0 <= idx < nrows * ncols ->
  exists a,
    subplots nrows ncols = Ok a /\
    _get_ax a idx nrows ncols = Ok (Axes (idx / ncols, idx mod ncols)).
Proof.
  intros Hr Hc Hidx. unfold subplots.
  destruct (Z.leb_spec nrows 0); [lia|]. destruct (Z.leb_spec ncols 0); [lia|].
  assert (Hrow : 0 <= idx / ncols < nrows).
  { split; [apply Z.div_pos; lia | apply Z.div_lt_upper_bound; nia]. }
  assert (Hcol : 0 <= idx mod ncols < ncols) by (apply Z.mod_pos_bound; lia).
  destruct (Z.eqb_spec nrows 1) as [Er|Er], (Z.eqb_spec ncols 1) as [Ec|Ec]; cbn [andb orb].
  - subst. eexists. split; [reflexivity|].
    rewrite get_ax_single by reflexivity.
    replace idx with 0 by lia. reflexivity.
  - subst nrows. eexists. split; [reflexivity|].
    rewrite get_ax_1d by lia. cbn [getitem].
    unfold grid_rows. rewrite zrange_1. cbn [map List.concat]. rewrite app_nil_r.
    rewrite (item_nth_error _ idx (0, idx));
      [| lia | apply (nth_error_grid_cell 1 ncols 0 idx); lia].
    cbn [bind]. rewrite Z.div_small, Z.mod_small by lia. reflexivity.
  - subst ncols. eexists. split; [reflexivity|].
    rewrite get_ax_1d by lia. cbn [getitem].
    unfold grid_rows. rewrite zrange_1.
    change (map (fun r => map (fun c => (r, c)) [0]) (zrange nrows))
      with (map (fun r => [(r, 0)]) (zrange nrows)).
    pose proof (concat_singletons (fun r : Z => (r, 0)) (zrange nrows)) as Hflat.
    cbn beta in Hflat. unfold ax_id. rewrite Hflat.
    rewrite (item_nth_error _ idx (idx, 0));
      [| lia | rewrite nth_error_map, nth_error_zrange by lia; reflexivity].
    cbn [bind]. rewrite Z.div_1_r, Z.mod_1_r. reflexivity.
  - eexists. split; [reflexivity|].
    rewrite get_ax_2d by lia. cbn [getitem2].
    rewrite (item_nth_error _ (idx / ncols) _ (proj1 Hrow)
               (nth_error_grid_rows nrows ncols _ Hrow)).
    cbn [bind].
    rewrite (item_nth_error _ (idx mod ncols) _ (proj1 Hcol)
               (nth_error_grid_cell nrows ncols _ _ Hcol)).
    reflexivity.
Qed.

(** C6. For positive integers [n] and [m] and every index [0 <= i < n],
    the position [_get_ax] computes lies inside the container of the
    planned shape: [i // columns < rows] and [i % columns < columns] in
    the two-dimensional branch, [i < rows * columns] in the
    one-dimensional one; and on the container [plt.subplots] returns for
    that shape the lookup returns an [Axes], the one at row-major
    place [i]. *)
Theorem plan_resolve_in_range (n m i : Z) :
  0 < n -> 0 < m -> 0 <= i < n ->
  exists rows cols,
    _calc_nrows_ncols (VInt n) (VInt m) = Ok (VInt rows, VInt cols) /\
    (1 < rows -> 1 < cols ->
       0 <= i / cols < rows /\ 0 <= i mod cols < cols) /\
    (~ (1 < rows /\ 1 < cols) -> rows * cols <> 1 -> 0 <= i < rows * cols) /\
    (rows * cols = 1 -> i = 0) /\
    exists a,
      subplots rows cols = Ok a /\
      _get_ax a i rows cols = Ok (Axes (i / cols, i mod cols)).
Proof.
  intros Hn Hm Hi. exists (rows_of n (Z.min n m)), (Z.min n m).
  assert (Hc : 0 < Z.min n m) by lia.
  pose proof (rows_of_covers n (Z.min n m) Hc) as Hcov.
  pose proof (rows_of_tight n (Z.min n m) Hc) as Htight.
  set (rows := rows_of n (Z.min n m)) in *. set (cols := Z.min n m) in *.
  assert (Hrows : 0 < rows) by nia.
  split; [apply calc_nrows_ncols_int; assumption|].
  split; [|split; [|split]].
  - intros _ _. split.
    + split; [apply Z.div_pos; lia | apply Z.div_lt_upper_bound; nia].
    + apply Z.mod_pos_bound; lia.
  - intros _ _. lia.
  - intros Hone. lia.
  - apply get_ax_subplots; lia.
Qed.

Lemma plan_resolve_in_range_witness :
  exists rows cols,
    _calc_nrows_ncols (VInt 7) (VInt 3) = Ok (VInt rows, VInt cols) /\
    (1 < rows -> 1 < cols ->
       0 <= 6 / cols < rows /\ 0 <= 6 mod cols < cols) /\
    (~ (1 < rows /\ 1 < cols) -> rows * cols <> 1 -> 0 <= 6 < rows * cols) /\
    (rows * cols = 1 -> 6 = 0) /\
    exists a,
      subplots rows cols = Ok a /\
      _get_ax a 6 rows cols = Ok (Axes (6 / cols, 6 mod cols)).
Proof. apply (plan_resolve_in_range 7 3 6); lia. Defined.

(** ** The value extractor *)

Lemma isinstance_series (data : value) :
  isinstance data TSeries = true <-> exists vs, data = VSeries vs.
Proof.
  destruct data; cbn; split; intros Hd; try discriminate; eauto;
    destruct Hd as [vs Hvs]; discriminate.
Qed.

Lemma get_value_series (vs : list value) (data_type : py_type) (empty_value : option value) :
  get_value_from_dataframe (VSeries vs) data_type empty_value =
    Ok (match vs with
        | [] => match empty_value with Some v => v | None => np_nan end
        | v :: _ => v
        end).
Proof. destruct vs; reflexivity. Qed.

Lemma get_value_scalar (data : value) (data_type : py_type) (empty_value : option value) :
  isinstance data TSeries = false ->
  get_value_from_dataframe data data_type empty_value =
    if isinstance data data_type then Ok data
    else Raise (TypeError (ShouldBe data data_type)).
Proof. intros Hs. unfold get_value_from_dataframe. rewrite Hs. reflexivity. Qed.

(** C4. [get_value_from_dataframe] on a [Series] returns the fallback when
    it is empty and its first value otherwise, whatever follows the first;
    on an instance of [data_type] it returns the object itself; on anything
    else it raises [TypeError]; and it raises in no other case. *)
Theorem get_value_total_or_fail
    (data : value) (data_type : py_type) (empty_value : option value) :
  (forall vs, data = VSeries vs ->
     get_value_from_dataframe data data_type empty_value =
       Ok (match vs with
           | [] => match empty_value with Some v => v | None => np_nan end
           | v :: _ => v
           end)) /\
  (isinstance data TSeries = false -> isinstance data data_type = true ->
     get_value_from_dataframe data data_type empty_value = Ok data) /\
  (isinstance data TSeries = false -> isinstance data data_type = false ->
     get_value_from_dataframe data data_type empty_value =
       Raise (TypeError (ShouldBe data data_type))) /\
  (raises (get_value_from_dataframe data data_type empty_value) <->
   isinstance data TSeries = false /\ isinstance data data_type = false).
Proof.
  split; [|split; [|split]].
  - intros vs ->. apply get_value_series.
  - intros Hs Ht. rewrite get_value_scalar, Ht by assumption. reflexivity.
  - intros Hs Ht. rewrite get_value_scalar, Ht by assumption. reflexivity.
  - destruct (isinstance data TSeries) eqn:Hs.
    + apply isinstance_series in Hs as [vs ->]. rewrite get_value_series.
      split; [intros [e He]; discriminate | intros [Hf _]; discriminate].
    + rewrite get_value_scalar by assumption.
      destruct (isinstance data data_type); split.
      * intros [e He]; discriminate.
      * intros [_ Hf]; discriminate.
      * intros _. split; reflexivity.
      * intros _. eexists. reflexivity.
Qed.

Lemma get_value_total_or_fail_witness :
  get_value_from_dataframe (VSeries []) TInt (Some (VInt (-1))) = Ok (VInt (-1)) /\
  get_value_from_dataframe (VSeries [VInt 7; VInt 8]) TInt (Some (VInt (-1))) = Ok (VInt 7) /\
  get_value_from_dataframe (VInt 5) TInt (Some (VInt (-1))) = Ok (VInt 5) /\
  get_value_from_dataframe (VStr "abc") TInt (Some (VInt (-1))) =
    Raise (TypeError (ShouldBe (VStr "abc") TInt)).
Proof.
  split; [|split; [|split]].
  - apply (proj1 (get_value_total_or_fail (VSeries []) TInt (Some (VInt (-1)))) []).
    reflexivity.
  - apply (proj1 (get_value_total_or_fail (VSeries [VInt 7; VInt 8]) TInt (Some (VInt (-1))))
             [VInt 7; VInt 8]).
    reflexivity.
  - apply (proj1 (proj2 (get_value_total_or_fail (VInt 5) TInt (Some (VInt (-1))))));
      reflexivity.
  - apply (proj1 (proj2 (proj2 (get_value_total_or_fail (VStr "abc") TInt (Some (VInt (-1)))))));
      reflexivity.
Defined.

(** C10. Called without [empty_value] on an empty [Series],
    [get_value_from_dataframe] returns [np.nan], a NaN, and does not
    raise. *)
Theorem get_value_default_nan (data_type : py_type) :
  get_value_from_dataframe (VSeries []) data_type None = Ok np_nan /\
  np_nan = VFloat nan /\
  is_nan nan = true.
Proof. repeat split. Qed.

(** ** The argument passing of [plot_bar] *)

(** [_plot_dots] itself passes its parameters on as they are named: called
    with keywords, the hue and the size reach [sns.stripplot]. *)
Lemma plot_dots_by_keyword (s : self) (x y hue size ax : arg) :
  _plot_dots s [x; y] [("hue_col", hue); ("plot_size", size); ("ax", ax)] =
    ([Call "sns.stripplot" []
        [("data", AData (_dataframe s)); ("x", x); ("y", y);
         ("hue", hue); ("size", size); ("ax", ax)]],
     Ok tt).
Proof. reflexivity. Qed.

(** The four positional arguments [plot_bar] writes fill [x_col], [y_col],
    [plot_size] and [ax], in that order: the hue lands in [plot_size] and
    the size in [ax]. *)
Lemma plot_bar_positional_binding (x y hue size : arg) :
  bind_positional "_plot_dots" _plot_dots_params [x; y; hue; size] =
    Ok [("x_col", x); ("y_col", y); ("plot_size", hue); ("ax", size)].
Proof. reflexivity. Qed.

(** So the keyword [ax=ax_i] that follows them fills [ax] a second time,
    and the call raises before [_plot_dots] runs. *)
Lemma plot_dots_call_raises (s : self) (x y hue size ax : arg) :
  _plot_dots s [x; y; hue; size] [("ax", ax)] =
    ([], Raise (TypeError (MultipleValues "_plot_dots" "ax"))).
Proof. reflexivity. Qed.

(** With [plot_dots] on, [plot_bar] raises on every input and never
    reaches [sns.stripplot]: neither [plot_size] nor [hue_col] is delivered
    to it. *)
Theorem plot_bar_dots_never_drawn
    (s : self) (x_col : string) (y_cols : list string) (hue_col max_ncols : value)
    (xlabel ylabel : string) (plot_size : value) (long_xticklabels : bool)
    (kwargs : list (string * arg)) :
  raises (snd (plot_bar s x_col y_cols hue_col max_ncols xlabel ylabel
                 true plot_size long_xticklabels kwargs)) /\
  existsb (called "sns.stripplot")
    (fst (plot_bar s x_col y_cols hue_col max_ncols xlabel ylabel
            true plot_size long_xticklabels kwargs)) = false.
Proof.
  unfold plot_bar, raises. destruct y_cols as [|y_col y_cols].
  - unfold _calc_nrows_ncols. cbn [List.length Z.of_nat as_int].
    destruct (as_int max_ncols); cbn; eauto.
  - destruct (_calc_nrows_ncols _ max_ncols) as [[nrows ncols]|e]; cbn; [|eauto].
    destruct (int_of nrows) as [r|e]; cbn; [|eauto].
    destruct (int_of ncols) as [c|e]; cbn; [|eauto].
    destruct (subplots r c) as [a|e]; cbn; [|eauto].
    destruct (_get_ax a 0 r c) as [ax_i|e]; cbn; [|eauto].
    destruct (with_kwargs _ _ kwargs) as [kw|e]; cbn; eauto.
Qed.

(** C3, on the code: [plot_size] should reach [sns.stripplot] as [size]
    and [hue_col] as [hue]. Run on one column with the defaults of
    [plot_bar] ([plot_dots=True], [plot_size=10], [max_ncols=5]) and a hue,
    the bar plot is drawn, then the call of [_plot_dots] raises
    [TypeError]: [sns.stripplot] is not called at all. *)
Example plot_bar_dots_failing_call :
  plot_bar (Self [("g", [VStr "a"]); ("h", [VStr "u"]); ("v", [VInt 1])] 10 10)
    "g" ["v"] (VStr "h") (VInt 5) "" "" true (VInt 10) false [] =
  ([Call "plt.subplots" [AVal (VInt 1); AVal (VInt 1)]
      [("figsize", AVal (VTuple [VInt 10; VInt 10]));
       ("tight_layout", AVal (VBool true))];
    Call "sns.barplot" []
      [("data", AData [("g", [VStr "a"]); ("h", [VStr "u"]); ("v", [VInt 1])]);
       ("x", AVal (VStr "g")); ("y", AVal (VStr "v")); ("hue", AVal (VStr "h"));
       ("ax", AAxes (Axes (0, 0)))]],
   Raise (TypeError (MultipleValues "_plot_dots" "ax"))).
Proof. reflexivity. Qed.

(** With [plot_dots] off the same call goes through. *)
Example plot_bar_without_dots :
  plot_bar (Self [("g", [VStr "a"]); ("h", [VStr "u"]); ("v", [VInt 1])] 10 10)
    "g" ["v"] (VStr "h") (VInt 5) "" "" false (VInt 10) false [] =
  ([Call "plt.subplots" [AVal (VInt 1); AVal (VInt 1)]
      [("figsize", AVal (VTuple [VInt 10; VInt 10]));
       ("tight_layout", AVal (VBool true))];
    Call "sns.barplot" []
      [("data", AData [("g", [VStr "a"]); ("h", [VStr "u"]); ("v", [VInt 1])]);
       ("x", AVal (VStr "g")); ("y", AVal (VStr "v")); ("hue", AVal (VStr "h"));
       ("ax", AAxes (Axes (0, 0)))];
    Call "Axes.set" [AAxes (Axes (0, 0))]
      [("xlabel", AVal (VStr "")); ("ylabel", AVal (VStr ""));
       ("title", AVal (VStr "v"))]],
   Ok (Figure 1 1)).
Proof. reflexivity. Qed.

Lemma int_of_chosen_column (v1 v2 : value) (n m : Z) :
  as_int v1 = Some n -> as_int v2 = Some m ->
  int_of (if n <? m then v1 else v2) = Ok (Z.min n m).
Proof.
  intros H1 H2. unfold int_of.
  destruct (Z.ltb_spec n m); [rewrite H1, Z.min_l | rewrite H2, Z.min_r];
    (reflexivity || lia).
Qed.

(** On every well-formed call (at least one column, a positive [max_ncols],
    no extra keywords) with [plot_dots] on, [plot_bar] draws the first bar
    plot and then raises the [TypeError] of the repeated [ax]. *)
Lemma plot_bar_dots_type_error
    (s : self) (x_col y_col : string) (y_cols : list string)
    (hue_col max_ncols : value) (m : Z)
    (xlabel ylabel : string) (plot_size : value) (long_xticklabels : bool) :
  as_int max_ncols = Some m -> 0 < m ->
  exists nrows ncols,
    plot_bar s x_col (y_col :: y_cols) hue_col max_ncols xlabel ylabel
      true plot_size long_xticklabels [] =
    ([Call "plt.subplots" [AVal (VInt nrows); AVal (VInt ncols)]
        [("figsize", AVal (VTuple [VInt (_col_size s * ncols);
                                   VInt (_row_size s * nrows)]));
         ("tight_layout", AVal (VBool true))];
      Call "sns.barplot" []
        [("data", AData (_dataframe s)); ("x", AVal (VStr x_col));
         ("y", AVal (VStr y_col)); ("hue", AVal hue_col);
         ("ax", AAxes (Axes (0, 0)))]],
     Raise (TypeError (MultipleValues "_plot_dots" "ax"))).
Proof.
  intros Hm Hpos. unfold plot_bar.
  set (n := Z.of_nat (List.length (y_col :: y_cols))).
  assert (Hn : 0 < n) by (subst n; cbn [List.length]; lia).
  set (c := Z.min n m). set (r := rows_of n c).
  assert (Hc : 0 < c) by (subst c; lia).
  assert (Hr : 0 < r).
  { pose proof (rows_of_covers n c Hc). fold r in H. nia. }
  exists r, c.
  rewrite (calc_nrows_ncols_ok (VInt n) max_ncols n m eq_refl Hm Hn Hpos).
  fold c. fold r. cbn [lift iobind].
  rewrite (int_of_chosen_column (VInt n) max_ncols n m eq_refl Hm). fold c.
  cbn [int_of as_int app].
  destruct (get_ax_subplots r c 0 Hr Hc ltac:(nia)) as (a & Ha & Hax).
  rewrite Z.div_0_l, Z.mod_0_l in Hax by lia.
  unfold _get_subplots. rewrite Ha.
  cbn [lift iobind emit ret app enumerate enumerate_from for_each].
  rewrite Hax. reflexivity.
Qed.

(** * Further properties of the two modules *)

(** ** The grid plan: bounds, monotonicity, booleans *)

(** X1. For positive integers the plan never has more columns than
    [max_ncols] nor than plots, never more rows than plots, and has a
    single row exactly when the plots fit in [max_ncols] columns. *)
Theorem plan_bounds (n m : Z) :
  0 < n -> 0 < m ->
  exists rows cols,
    _calc_nrows_ncols (VInt n) (VInt m) = Ok (VInt rows, VInt cols) /\
    1 <= cols <= m /\ cols <= n /\ 1 <= rows <= n /\
    (rows = 1 <-> n <= m) /\
    (cols = m <-> m <= n).
Proof.
  intros Hn Hm. exists (rows_of n (Z.min n m)), (Z.min n m).
  assert (Hc : 0 < Z.min n m) by lia.
  pose proof (rows_of_covers n (Z.min n m) Hc) as Hcov.
  pose proof (rows_of_tight n (Z.min n m) Hc) as Htight.
  split; [apply calc_nrows_ncols_int; assumption|].
  repeat split; try lia; try nia.
Qed.

Lemma plan_bounds_witness :
  exists rows cols,
    _calc_nrows_ncols (VInt 7) (VInt 3) = Ok (VInt rows, VInt cols) /\
    1 <= cols <= 3 /\ cols <= 7 /\ 1 <= rows <= 7 /\
    (rows = 1 <-> 7 <= 3) /\
    (cols = 3 <-> 3 <= 7).
Proof. apply (plan_bounds 7 3); lia. Defined.

(** X2. More plots never need fewer rows, and a wider grid never needs
    more rows. *)
Theorem plan_rows_monotone (n n' m m' : Z) :
  0 < n -> n <= n' -> 0 < m -> m <= m' ->
  exists r r_more r_wider c c_more c_wider,
    _calc_nrows_ncols (VInt n) (VInt m) = Ok (VInt r, VInt c) /\
    _calc_nrows_ncols (VInt n') (VInt m) = Ok (VInt r_more, VInt c_more) /\
    _calc_nrows_ncols (VInt n) (VInt m') = Ok (VInt r_wider, VInt c_wider) /\
    r <= r_more /\ r_wider <= r.
Proof.
  intros Hn Hn' Hm Hm'.
  exists (rows_of n (Z.min n m)), (rows_of n' (Z.min n' m)), (rows_of n (Z.min n m')),
         (Z.min n m), (Z.min n' m), (Z.min n m').
  rewrite !calc_nrows_ncols_int by lia.
  repeat split.
  - pose proof (rows_of_tight n (Z.min n m) ltac:(lia)) as Ht.
    pose proof (rows_of_covers n' (Z.min n' m) ltac:(lia)) as Hc.
    destruct (Z.le_gt_cases n m) as [Hle|Hgt].
    + rewrite (Z.min_l n m) in * by lia.
      assert (0 < rows_of n' (Z.min n' m)) by nia. nia.
    + rewrite (Z.min_r n m) in * by lia. rewrite (Z.min_r n' m) in * by lia. nia.
  - pose proof (rows_of_tight n (Z.min n m') ltac:(lia)) as Ht.
    pose proof (rows_of_covers n (Z.min n m) ltac:(lia)) as Hc.
    assert (Hcc : Z.min n m <= Z.min n m') by lia.
    assert (Hpos : 0 < Z.min n m') by lia.
    assert (Hr : 0 < rows_of n (Z.min n m)) by nia.
    nia.
Qed.

Lemma plan_rows_monotone_witness :
  exists r r_more r_wider c c_more c_wider,
    _calc_nrows_ncols (VInt 7) (VInt 3) = Ok (VInt r, VInt c) /\
    _calc_nrows_ncols (VInt 10) (VInt 3) = Ok (VInt r_more, VInt c_more) /\
    _calc_nrows_ncols (VInt 7) (VInt 4) = Ok (VInt r_wider, VInt c_wider) /\
    r <= r_more /\ r_wider <= r.
Proof. apply (plan_rows_monotone 7 10 3 4); lia. Defined.

(** X3. A [bool] passes the [isinstance(..., int)] guard: [True] counts as
    one plot (or one column) and is handed back as the column count when
    it is the argument chosen; [False] is refused as a non-positive value,
    not as a wrong type. *)
Theorem plan_accepts_bool (v : value) (m : Z) :
  as_int v = Some m -> 0 < m ->
  _calc_nrows_ncols (VBool true) v =
    Ok (VInt 1, if 1 <? m then VBool true else v) /\
  _calc_nrows_ncols v (VBool true) = Ok (VInt m, VBool true) /\
  _calc_nrows_ncols (VBool false) v =
    Raise (ValueError (Text "nplots and max_ncols must be positive values.")) /\
  _calc_nrows_ncols v (VBool false) =
    Raise (ValueError (Text "nplots and max_ncols must be positive values.")).
Proof.
  intros Hv Hm. split; [|split; [|split]].
  - rewrite (calc_nrows_ncols_ok (VBool true) v 1 m) by (reflexivity || assumption || lia).
    replace (Z.min 1 m) with 1 by lia. reflexivity.
  - rewrite (calc_nrows_ncols_ok v (VBool true) m 1) by (reflexivity || assumption || lia).
    replace (Z.min m 1) with 1 by lia.
    destruct (Z.ltb_spec m 1); [lia|].
    unfold rows_of. rewrite Z.div_1_r, Z.mod_1_r. cbn. f_equal. f_equal. f_equal. lia.
  - unfold _calc_nrows_ncols. cbn [as_int]. rewrite Hv. reflexivity.
  - unfold _calc_nrows_ncols. cbn [as_int]. rewrite Hv.
    destruct (m <=? 0); reflexivity.
Qed.

Lemma plan_accepts_bool_witness :
  _calc_nrows_ncols (VBool true) (VInt 5) =
    Ok (VInt 1, if 1 <? 5 then VBool true else VInt 5) /\
  _calc_nrows_ncols (VInt 5) (VBool true) = Ok (VInt 5, VBool true) /\
  _calc_nrows_ncols (VBool false) (VInt 5) =
    Raise (ValueError (Text "nplots and max_ncols must be positive values.")) /\
  _calc_nrows_ncols (VInt 5) (VBool false) =
    Raise (ValueError (Text "nplots and max_ncols must be positive values.")).
Proof. apply (plan_accepts_bool (VInt 5) 5); [reflexivity | lia]. Defined.

(** ** The axis lookup: bounds, negative indices, mismatched shapes *)

Section ItemBounds.

Context {A : Type}.

Lemma item_below (l : list A) (i : Z) :
  i < - Z.of_nat (List.length l) ->
  item l i = Raise (IndexError (OutOfBounds i (List.length l))).
Proof.
  intros Hi. unfold item.
  destruct (Z.leb_spec (- Z.of_nat (List.length l)) i); [lia|]. reflexivity.
Qed.

(** A negative index counts from the end. *)
Lemma item_negative (l : list A) (i : Z) :
  - Z.of_nat (List.length l) <= i < 0 ->
  item l i = item l (i + Z.of_nat (List.length l)).
Proof.
  intros Hi. unfold item.
  destruct (Z.leb_spec (- Z.of_nat (List.length l)) i); [|lia].
  destruct (Z.ltb_spec i (Z.of_nat (List.length l))); [|lia].
  destruct (Z.ltb_spec i 0); [|lia].
  destruct (Z.leb_spec (- Z.of_nat (List.length l)) (i + Z.of_nat (List.length l))); [|lia].
  destruct (Z.ltb_spec (i + Z.of_nat (List.length l)) (Z.of_nat (List.length l))); [|lia].
  destruct (Z.ltb_spec (i + Z.of_nat (List.length l)) 0); [lia|].
  cbn [andb].
  destruct (nth_error l (Z.to_nat (i + Z.of_nat (List.length l)))) eqn:Hn;
    [reflexivity|].
  apply nth_error_None in Hn. lia.
Qed.

End ItemBounds.

Lemma length_zrange (n : Z) : 0 <= n -> Z.of_nat (List.length (zrange n)) = n.
Proof. intros Hn. unfold zrange. rewrite length_map, length_seq. lia. Qed.

Lemma length_grid_rows (nrows ncols : Z) :
  0 <= nrows -> Z.of_nat (List.length (grid_rows nrows ncols)) = nrows.
Proof. intros Hr. unfold grid_rows. rewrite length_map. apply length_zrange, Hr. Qed.

(** The container of a grid that is not 1 x 1: flat when one side is 1,
    rows of columns otherwise. *)
Lemma subplots_shape (nrows ncols : Z) :
  0 < nrows -> 0 < ncols -> nrows * ncols <> 1 ->
  (~ (1 < nrows /\ 1 < ncols) /\
   exists items, subplots nrows ncols = Ok (Array1 items) /\
                 Z.of_nat (List.length items) = nrows * ncols) \/
  (1 < nrows /\ 1 < ncols /\
   subplots nrows ncols = Ok (Array2 (grid_rows nrows ncols))).
Proof.
  intros Hr Hc Hone. unfold subplots.
  destruct (Z.leb_spec nrows 0); [lia|]. destruct (Z.leb_spec ncols 0); [lia|].
  destruct (Z.eqb_spec nrows 1) as [Er|Er], (Z.eqb_spec ncols 1) as [Ec|Ec]; cbn [andb orb].
  - subst. lia.
  - left. split; [lia|]. eexists. split; [reflexivity|].
    subst nrows. unfold grid_rows. rewrite zrange_1. cbn [map List.concat].
    rewrite app_nil_r, length_map, length_zrange; lia.
  - left. split; [lia|]. eexists. split; [reflexivity|].
    subst ncols. unfold grid_rows. rewrite zrange_1.
    pose proof (concat_singletons (fun r : Z => (r, 0)) (zrange nrows)) as Hflat.
    cbn beta in Hflat.
    change (map (fun r => map (fun c => (r, c)) [0]) (zrange nrows))
      with (map (fun r => [(r, 0)]) (zrange nrows)).
    unfold ax_id. rewrite Hflat, length_map, length_zrange; lia.
  - right. repeat split; lia.
Qed.

(** X4. On the container [plt.subplots] returns for a grid that is not
    1 x 1, an index outside [-nrows * ncols <= idx < nrows * ncols] makes
    [_get_ax] raise [IndexError]. *)
Theorem get_ax_out_of_range (nrows ncols idx : Z) :
  0 < nrows -> 0 < ncols -> nrows * ncols <> 1 ->
  idx < - (nrows * ncols) \/ nrows * ncols <= idx ->
  exists a msg,
    subplots nrows ncols = Ok a /\
    _get_ax a idx nrows ncols = Raise (IndexError msg).
Proof.
  intros Hr Hc Hone Hidx.
  destruct (subplots_shape nrows ncols Hr Hc Hone)
    as [(Hflat & items & Ha & Hlen) | (Hr1 & Hc1 & Ha)].
  - exists (Array1 items). eexists. split; [exact Ha|].
    rewrite get_ax_1d by assumption. cbn [getitem].
    destruct Hidx as [Hlow|Hhigh].
    + rewrite item_below by lia. reflexivity.
    + rewrite item_out_of_bounds by lia. reflexivity.
  - exists (Array2 (grid_rows nrows ncols)). eexists. split; [exact Ha|].
    rewrite get_ax_2d by assumption. cbn [getitem2].
    pose proof (length_grid_rows nrows ncols ltac:(lia)) as Hlen.
    destruct Hidx as [Hlow|Hhigh].
    + rewrite item_below; [reflexivity|]. rewrite Hlen.
      apply Z.div_lt_upper_bound; nia.
    + rewrite item_out_of_bounds; [reflexivity|]. rewrite Hlen.
      apply Z.div_le_lower_bound; nia.
Qed.

Lemma get_ax_out_of_range_witness :
  exists a msg,
    subplots 2 3 = Ok a /\ _get_ax a 6 2 3 = Raise (IndexError msg).
Proof. apply (get_ax_out_of_range 2 3 6); lia. Defined.

(** X5. Distinct indices of a grid get distinct [Axes]: no two columns are
    drawn onto the same one. *)
Theorem get_ax_injective (nrows ncols i j : Z) :
  0 < nrows -> 0 < ncols ->
  0 <= i < nrows * ncols -> 0 <= j < nrows * ncols -> i <> j ->
  exists a hi hj,
    subplots nrows ncols = Ok a /\
    _get_ax a i nrows ncols = Ok (Axes hi) /\
    _get_ax a j nrows ncols = Ok (Axes hj) /\
    hi <> hj.
Proof.
  intros Hr Hc Hi Hj Hij.
  destruct (get_ax_subplots nrows ncols i Hr Hc Hi) as (a & Ha & Hai).
  destruct (get_ax_subplots nrows ncols j Hr Hc Hj) as (a' & Ha' & Haj).
  rewrite Ha in Ha'. injection Ha' as <-.
  exists a, (i / ncols, i mod ncols), (j / ncols, j mod ncols).
  repeat split; try assumption.
  intros [= Hq Hm]. apply Hij.
  rewrite (Z.div_mod i ncols), (Z.div_mod j ncols) by lia. rewrite Hq, Hm. reflexivity.
Qed.

Lemma get_ax_injective_witness :
  exists a hi hj,
    subplots 2 3 = Ok a /\
    _get_ax a 2 2 3 = Ok (Axes hi) /\
    _get_ax a 3 2 3 = Ok (Axes hj) /\
    hi <> hj.
Proof. apply (get_ax_injective 2 3 2 3); lia. Defined.

(** X7. A negative index counts from the end in every shape: on the
    container of a grid, [idx] in [-nrows * ncols <= idx < 0] finds the
    [Axes] that [idx + nrows * ncols] finds. *)
Theorem get_ax_negative_index (nrows ncols idx : Z) :
  0 < nrows -> 0 < ncols -> - (nrows * ncols) <= idx < 0 ->
  exists a,
    subplots nrows ncols = Ok a /\
    _get_ax a idx nrows ncols = _get_ax a (idx + nrows * ncols) nrows ncols /\
    _get_ax a idx nrows ncols =
      Ok (Axes ((idx + nrows * ncols) / ncols, (idx + nrows * ncols) mod ncols)).
Proof.
  intros Hr Hc Hidx.
  destruct (get_ax_subplots nrows ncols (idx + nrows * ncols) Hr Hc ltac:(lia))
    as (a & Ha & Hpos).
  exists a. split; [exact Ha|].
  assert (Heq : _get_ax a idx nrows ncols = _get_ax a (idx + nrows * ncols) nrows ncols).
  { destruct (Z.eq_dec (nrows * ncols) 1) as [Hone|Hone].
    - rewrite !get_ax_single by assumption. reflexivity.
    - destruct (subplots_shape nrows ncols Hr Hc Hone)
        as [(Hflat & items & Ha' & Hlen) | (Hr1 & Hc1 & Ha')];
        rewrite Ha in Ha'; injection Ha' as ->.
      + rewrite !get_ax_1d by assumption. cbn [getitem].
        rewrite (item_negative items idx) by lia. rewrite Hlen. reflexivity.
      + rewrite !get_ax_2d by assumption. cbn [getitem2].
        pose proof (length_grid_rows nrows ncols ltac:(lia)) as Hlen.
        rewrite Z.div_add, Z.mod_add by lia.
        rewrite (item_negative (grid_rows nrows ncols) (idx / ncols)).
        * rewrite Hlen. reflexivity.
        * rewrite Hlen. split.
          -- apply Z.div_le_lower_bound; nia.
          -- apply Z.div_lt_upper_bound; lia. }
  split; [exact Heq | rewrite Heq; exact Hpos].
Qed.

Lemma get_ax_negative_index_witness :
  exists a,
    subplots 2 3 = Ok a /\
    _get_ax a (-1) 2 3 = _get_ax a (-1 + 2 * 3) 2 3 /\
    _get_ax a (-1) 2 3 = Ok (Axes ((-1 + 2 * 3) / 3, (-1 + 2 * 3) mod 3)).
Proof. apply (get_ax_negative_index 2 3 (-1)); lia. Defined.

(** X6. What [_get_ax] does when the container does not have the shape the
    sizes announce: a single [Axes] under sizes other than 1 x 1 raises
    [TypeError]; a flat array under two sizes above 1 raises [IndexError];
    an array of rows under the flat branch never yields an [Axes] (a whole
    row, or [IndexError]); and under 1 x 1 any container comes back as it
    is. *)
Theorem get_ax_shape_mismatch {H : Type} (idx nrows ncols : Z) :
  (forall h : H, nrows * ncols <> 1 ->
     _get_ax (Axes h) idx nrows ncols = Raise (TypeError NotSubscriptable)) /\
  (forall items : list H, 1 < nrows -> 1 < ncols ->
     _get_ax (Array1 items) idx nrows ncols = Raise (IndexError TooManyIndices)) /\
  (forall rows : list (list H), ~ (1 < nrows /\ 1 < ncols) -> nrows * ncols <> 1 ->
     (exists row, _get_ax (Array2 rows) idx nrows ncols = Ok (Array1 row) /\ In row rows) \/
     (exists msg, _get_ax (Array2 rows) idx nrows ncols = Raise (IndexError msg))) /\
  (forall a : axes H, nrows * ncols = 1 -> _get_ax a idx nrows ncols = Ok a).
Proof.
  split; [|split; [|split]].
  - intros h Hone.
    destruct (Z.gtb_spec nrows 1) as [Hr|Hr], (Z.gtb_spec ncols 1) as [Hc|Hc];
      try (rewrite get_ax_1d by lia; reflexivity).
    rewrite get_ax_2d by lia. reflexivity.
  - intros items Hr Hc. rewrite get_ax_2d by assumption. reflexivity.
  - intros rows Hflat Hone. rewrite get_ax_1d by assumption. cbn [getitem].
    unfold item.
    destruct ((- Z.of_nat (List.length rows) <=? idx) && (idx <? Z.of_nat (List.length rows)));
      [|right; eexists; reflexivity].
    destruct (nth_error rows _) as [row|] eqn:Hrow.
    + left. exists row. split; [reflexivity | eapply nth_error_In; exact Hrow].
    + right. eexists. reflexivity.
  - intros a Hone. apply get_ax_single, Hone.
Qed.

Lemma get_ax_shape_mismatch_witness :
  _get_ax (Axes 7) 0 1 3 = Raise (TypeError NotSubscriptable) /\
  _get_ax (Array1 [7; 8; 9]) 1 2 2 = Raise (IndexError TooManyIndices) /\
  _get_ax (Array2 [[7; 8]; [9; 10]]) 5 1 1 = Ok (Array2 [[7; 8]; [9; 10]]).
Proof.
  split; [|split].
  - apply (proj1 (get_ax_shape_mismatch 0 1 3) 7). lia.
  - apply (proj1 (proj2 (get_ax_shape_mismatch 1 2 2)) [7; 8; 9]); lia.
  - apply (proj2 (proj2 (proj2 (get_ax_shape_mismatch 5 1 1))) (Array2 [[7; 8]; [9; 10]])).
    reflexivity.
Defined.

(** ** Keyword arguments *)



Section KeywordFacts.

Context {A : Type}.




End KeywordFacts.


(** ** [_plot_dots] *)



(** ** [plot_bar] *)



(** X8. When the column list is empty or [max_ncols] is not a positive
    integer, [plot_bar] raises the planner's exception before any call
    into matplotlib or seaborn. *)
Theorem plot_bar_invalid_layout
    (s : self) (x_col : string) (y_cols : list string) (hue_col max_ncols : value)
    (xlabel ylabel : string) (plot_dots : bool) (plot_size : value)
    (long_xticklabels : bool) (kwargs : list (string * arg)) :
  y_cols = [] \/ positive_int max_ncols = false ->
  exists e,
    plot_bar s x_col y_cols hue_col max_ncols xlabel ylabel
      plot_dots plot_size long_xticklabels kwargs = ([], Raise e) /\
    invalid_argument e = true.
Proof.
  intros Hbad. unfold plot_bar.
  pose proof (calc_nrows_ncols_guard (VInt (Z.of_nat (List.length y_cols))) max_ncols) as Hg.
  cbn [as_int] in Hg. unfold positive_int in Hbad.
  destruct (as_int max_ncols) as [m|].
  - destruct ((Z.of_nat (List.length y_cols) <=? 0) || (m <=? 0)) eqn:Hle.
    + rewrite Hg. eexists. split; reflexivity.
    + exfalso. apply orb_false_elim in Hle as [Hn Hm].
      apply Z.leb_gt in Hn. apply Z.leb_gt in Hm.
      destruct Hbad as [-> | Hpos]; [cbn in Hn; lia|].
      apply Z.ltb_ge in Hpos. lia.
  - rewrite Hg. eexists. split; reflexivity.
Qed.

Lemma plot_bar_invalid_layout_witness :
  exists e,
    plot_bar (Self [] 10 10) "g" [] VNone (VInt 5) "" "" true (VInt 10) false [] =
      ([], Raise e) /\
    invalid_argument e = true.
Proof.
  apply (plot_bar_invalid_layout (Self [] 10 10) "g" [] VNone (VInt 5) "" ""
           true (VInt 10) false []).
  left. reflexivity.
Defined.










(** ** The value extractor: what the class check covers *)

(** X13. The class check of [get_value_from_dataframe] covers the scalar
    path only: a value returned for a non-[Series] is the argument itself
    and an instance of [data_type], while for a [Series] the result does
    not depend on [data_type] at all, so that a first value or a fallback
    of another class is returned as it is. *)
Theorem get_value_check_scope (data_type : py_type) (empty_value : option value) :
  (forall data v,
     isinstance data TSeries = false ->
     get_value_from_dataframe data data_type empty_value = Ok v ->
     v = data /\ isinstance v data_type = true) /\
  (forall vs data_type',
     get_value_from_dataframe (VSeries vs) data_type empty_value =
     get_value_from_dataframe (VSeries vs) data_type' empty_value) /\
  (forall v vs,
     isinstance v data_type = false ->
     get_value_from_dataframe (VSeries (v :: vs)) data_type empty_value = Ok v) /\
  (forall fallback,
     isinstance fallback data_type = false ->
     get_value_from_dataframe (VSeries []) data_type (Some fallback) = Ok fallback).
Proof.
  split; [|split; [|split]].
  - intros data v Hs Hv. rewrite get_value_scalar in Hv by assumption.
    destruct (isinstance data data_type) eqn:Ht; [|discriminate].
    injection Hv as <-. split; [reflexivity | exact Ht].
  - intros vs data_type'. rewrite !get_value_series. reflexivity.
  - intros v vs _. apply get_value_series.
  - intros fallback _. apply get_value_series.
Qed.

Lemma get_value_check_scope_witness :
  (VInt 5 = VInt 5 /\ isinstance (VInt 5) TInt = true) /\
  get_value_from_dataframe (VSeries [VStr "abc"; VInt 1]) TInt None = Ok (VStr "abc") /\
  get_value_from_dataframe (VSeries []) TInt (Some (VStr "none")) = Ok (VStr "none").
Proof.
  split; [|split].
  - apply (proj1 (get_value_check_scope TInt None) (VInt 5) (VInt 5)); reflexivity.
  - apply (proj1 (proj2 (proj2 (get_value_check_scope TInt None)))). reflexivity.
  - apply (proj2 (proj2 (proj2 (get_value_check_scope TInt None)))). reflexivity.
Defined.

(** X14. The class check follows [isinstance]: a [bool] is accepted where
    [int] is expected, an [int] is refused where [bool] or [float] is
    expected, and with [object] as the expected class nothing is refused. *)
Theorem get_value_subclasses (empty_value : option value) :
  (forall b, get_value_from_dataframe (VBool b) TInt empty_value = Ok (VBool b)) /\
  (forall z, get_value_from_dataframe (VInt z) TBool empty_value =
             Raise (TypeError (ShouldBe (VInt z) TBool))) /\
  (forall z, get_value_from_dataframe (VInt z) TFloat empty_value =
             Raise (TypeError (ShouldBe (VInt z) TFloat))) /\
  (forall data, ~ raises (get_value_from_dataframe data TObject empty_value)).
Proof.
  split; [|split; [|split]]; try reflexivity.
  intros data [e He].
  destruct (isinstance data TSeries) eqn:Hs.
  - apply isinstance_series in Hs as [vs ->]. rewrite get_value_series in He. discriminate.
  - rewrite get_value_scalar in He by assumption.
    assert (Ho : isinstance data TObject = true) by (destruct data; reflexivity).
    rewrite Ho in He. discriminate.
Qed.
